(** * app.py: a two-route Flask service, embedded and verified

    The program under study is [src/app.py]: a module that creates a Flask
    application object, registers the views [hello] (rule [/]) and [health]
    (rule [/health]) and, when executed as a script, calls [app.run] with a
    literal host, port and debug flag.

    Layout of this development:
    - [Json]   : the text produced by [json.dumps] for a dictionary of
                 strings, and a reader for that fragment of JSON;
    - [Py]     : the effects a view can have: raise, leave the module's
                 globals changed, ask the operating system for the hostname;
    - [Flask]  : the operations of the framework that app.py calls
                 ([Flask(...)], [route], [jsonify], [run]) and the request
                 dispatch that a registered view goes through;
    - [App]    : app.py itself, statement by statement;
    - then the properties. *)

From Stdlib Require Import String Ascii List ZArith NArith Bool DecimalString.
From Stdlib Require Import Permutation Sorted.
Import ListNotations.
Open Scope string_scope.

(** A Python [str] is modelled by [string]: a sequence of characters whose
    code points are below 256.  A Python [dict] literal is an association
    list in insertion order. *)
Definition pydict : Type := list (string * string).

(** [d.get(k)] *)
Fixpoint dict_get (k : string) (d : pydict) : option string :=
  match d with
  | [] => None
  | (k', v) :: rest => if String.eqb k' k then Some v else dict_get k rest
  end.

(** [list(d.keys())] *)
Definition dict_keys (d : pydict) : list string := map fst d.

(* ------------------------------------------------------------------ *)
(** * JSON text *)

Module Json.

Definition quote : ascii := ascii_of_nat 34.
Definition backslash : ascii := ascii_of_nat 92.

(** One lower-case hexadecimal digit, as produced by the format [04x]. *)
Definition hexdigit (n : N) : ascii :=
  if (n <? 10)%N then ascii_of_N (48 + n) else ascii_of_N (87 + n).

(** [format(n, '04x')] behind a backslash and a [u], for [n] below 256. *)
Definition u_escape (c : ascii) : string :=
  let n := N_of_ascii c in
  String backslash
    (String "u" (String "0" (String "0"
      (String (hexdigit (n / 16)) (String (hexdigit (n mod 16)) EmptyString))))).

(** encoder.py, [ESCAPE_ASCII]: a backslash, a double quote, or anything
    outside the range from space to tilde. *)
Definition escape_ascii_match (c : ascii) : bool :=
  let n := N_of_ascii c in
  Ascii.eqb c backslash || Ascii.eqb c quote || (n <? 32)%N || (126 <? n)%N.

(** encoder.py, [ESCAPE_DCT] and the [KeyError] branch of [replace]. *)
Definition replace (c : ascii) : string :=
  let two (e : ascii) := String backslash (String e EmptyString) in
  if Ascii.eqb c backslash then two backslash
  else if Ascii.eqb c quote then two quote
  else match N_of_ascii c with
       | 8%N => two "b"%char
       | 12%N => two "f"%char
       | 10%N => two "n"%char
       | 13%N => two "r"%char
       | 9%N => two "t"%char
       | _ => u_escape c
       end.

(** [ESCAPE_ASCII.sub(replace, s)] *)
Fixpoint escape_sub (s : string) : string :=
  match s with
  | EmptyString => EmptyString
  | String c rest =>
      (if escape_ascii_match c then replace c else String c EmptyString)
        ++ escape_sub rest
  end.

(** encoder.py, [py_encode_basestring_ascii] *)
Definition encode_basestring_ascii (s : string) : string :=
  String quote (escape_sub s ++ String quote EmptyString).

(** [sorted(dct.items())]: insertion by key; the keys of a dict are
    distinct, so the order of the values never matters. *)
Fixpoint insert_item (kv : string * string) (l : pydict) : pydict :=
  match l with
  | [] => [kv]
  | kv' :: rest =>
      if String.leb (fst kv) (fst kv') then kv :: l
      else kv' :: insert_item kv rest
  end.

Fixpoint sorted (l : pydict) : pydict :=
  match l with
  | [] => []
  | kv :: rest => insert_item kv (sorted rest)
  end.

(** encoder.py, [_iterencode_dict] with [item_separator = ','] and
    [key_separator = ':']: the members after the opening brace. *)
Fixpoint encode_items (first : bool) (l : pydict) : string :=
  match l with
  | [] => "}"
  | (k, v) :: rest =>
      (if first then EmptyString else ",")
        ++ encode_basestring_ascii k ++ ":" ++ encode_basestring_ascii v
        ++ encode_items false rest
  end.

(** [json.dumps(d, sort_keys=True, separators=(',', ':'))] on a dictionary
    whose keys and values are strings. *)
Definition dumps (d : pydict) : string :=
  String "{" (encode_items true (sorted d)).

(** ** Reading the text back

    A one-pass reader for the JSON grammar restricted to one object whose
    members are strings, following decoder.py ([JSONObject], [py_scanstring]
    in strict mode): optional white space around every token, the escapes of
    [BACKSLASH], four-digit [\u] escapes, and no raw control character inside
    a string.  It answers the members in the order of the text, or [None]
    when the text is not of that form. *)

Inductive pstate : Type :=
| ExpectObject
| ExpectKeyOrClose
| ExpectKey
| InString (key : option string) (cur : string)
| ExpectColon (key : string)
| ExpectValue (key : string)
| ExpectCommaOrClose
| ExpectEnd.

(** decoder.py, [WHITESPACE_STR] *)
Definition is_ws (c : ascii) : bool :=
  match N_of_ascii c with
  | 32%N | 9%N | 10%N | 13%N => true
  | _ => false
  end.

(** decoder.py, [BACKSLASH] *)
Definition unescape (e : ascii) : option ascii :=
  if Ascii.eqb e quote then Some quote
  else if Ascii.eqb e backslash then Some backslash
  else if Ascii.eqb e "/" then Some "/"%char
  else if Ascii.eqb e "b" then Some (ascii_of_nat 8)
  else if Ascii.eqb e "f" then Some (ascii_of_nat 12)
  else if Ascii.eqb e "n" then Some (ascii_of_nat 10)
  else if Ascii.eqb e "r" then Some (ascii_of_nat 13)
  else if Ascii.eqb e "t" then Some (ascii_of_nat 9)
  else None.

Definition hexval (c : ascii) : option N :=
  let n := N_of_ascii c in
  if (48 <=? n)%N && (n <=? 57)%N then Some (n - 48)%N
  else if (97 <=? n)%N && (n <=? 102)%N then Some (n - 87)%N
  else if (65 <=? n)%N && (n <=? 70)%N then Some (n - 55)%N
  else None.

(** decoder.py, [_decode_uXXXX] followed by [chr]; a code point of 256 or
    more has no character in this model and is refused. *)
Definition decode_u (a b c d : ascii) : option ascii :=
  match hexval a, hexval b, hexval c, hexval d with
  | Some 0%N, Some 0%N, Some h, Some l => Some (ascii_of_N (16 * h + l))
  | _, _, _, _ => None
  end.

Definition snoc (s : string) (c : ascii) : string := s ++ String c EmptyString.

Fixpoint scan (st : pstate) (acc : pydict) (s : string) : option pydict :=
  match s with
  | EmptyString => match st with ExpectEnd => Some acc | _ => None end
  | String c rest =>
      match st with
      | ExpectObject =>
          if is_ws c then scan ExpectObject acc rest
          else if Ascii.eqb c "{" then scan ExpectKeyOrClose acc rest
          else None
      | ExpectKeyOrClose =>
          if is_ws c then scan ExpectKeyOrClose acc rest
          else if Ascii.eqb c "}" then scan ExpectEnd acc rest
          else if Ascii.eqb c quote then scan (InString None EmptyString) acc rest
          else None
      | ExpectKey =>
          if is_ws c then scan ExpectKey acc rest
          else if Ascii.eqb c quote then scan (InString None EmptyString) acc rest
          else None
      | InString key cur =>
          if Ascii.eqb c quote then
            match key with
            | None => scan (ExpectColon cur) acc rest
            | Some k => scan ExpectCommaOrClose (acc ++ [(k, cur)])%list rest
            end
          else if Ascii.eqb c backslash then
            match rest with
            | EmptyString => None
            | String e rest1 =>
                if Ascii.eqb e "u" then
                  match rest1 with
                  | String h1 (String h2 (String h3 (String h4 rest5))) =>
                      match decode_u h1 h2 h3 h4 with
                      | Some d => scan (InString key (snoc cur d)) acc rest5
                      | None => None
                      end
                  | _ => None
                  end
                else
                  match unescape e with
                  | Some d => scan (InString key (snoc cur d)) acc rest1
                  | None => None
                  end
            end
          else if (N_of_ascii c <? 32)%N then None
          else scan (InString key (snoc cur c)) acc rest
      | ExpectColon k =>
          if is_ws c then scan (ExpectColon k) acc rest
          else if Ascii.eqb c ":" then scan (ExpectValue k) acc rest
          else None
      | ExpectValue k =>
          if is_ws c then scan (ExpectValue k) acc rest
          else if Ascii.eqb c quote then scan (InString (Some k) EmptyString) acc rest
          else None
      | ExpectCommaOrClose =>
          if is_ws c then scan ExpectCommaOrClose acc rest
          else if Ascii.eqb c "," then scan ExpectKey acc rest
          else if Ascii.eqb c "}" then scan ExpectEnd acc rest
          else None
      | ExpectEnd =>
          if is_ws c then scan ExpectEnd acc rest else None
      end
  end.

(** The members of the object that a text denotes, if it is one. *)
Definition loads (s : string) : option pydict := scan ExpectObject [] s.

(** A text made of white space only. *)
Definition blank (s : string) : bool :=
  forallb is_ws (list_ascii_of_string s).

End Json.

(* ------------------------------------------------------------------ *)
(** * Effects of Python code

    A computation runs against the operating system as it is at that moment
    and against the program's mutable state.  It ends with a value or with a
    raised exception, leaves a state behind, and records what it asked of
    the outside world. *)

Module Py.

(** [socket.gethostname] raises [OSError] when the system call fails. *)
Inductive exn : Type :=
| OSError (errno : Z).

(** What the operating system answers to [gethostname] at a given moment. *)
Record OS : Type := { sys_gethostname : exn + string }.

Inductive event : Type :=
| Gethostname (answer : exn + string)
| ViewCalled (endpoint : string).

Record outcome (S A : Type) : Type :=
  { result : exn + A; globals : S; events : list event }.
Arguments result {S A} _.
Arguments globals {S A} _.
Arguments events {S A} _.

Definition M (S A : Type) : Type := OS -> S -> outcome S A.

Definition ret {S A} (a : A) : M S A :=
  fun _ g => {| result := inr a; globals := g; events := [] |}.

Definition raise {S A} (e : exn) : M S A :=
  fun _ g => {| result := inl e; globals := g; events := [] |}.

(** Sequencing: an exception raised by the first part skips the rest. *)
Definition bind {S A B} (m : M S A) (k : A -> M S B) : M S B :=
  fun os g =>
    let o := m os g in
    match result o with
    | inl e => {| result := inl e; globals := globals o; events := events o |}
    | inr a =>
        let o' := k a os (globals o) in
        {| result := result o'; globals := globals o';
           events := (events o ++ events o')%list |}
    end.

(** [socket.gethostname()]: one system call, whose answer is returned or
    raised. *)
Definition gethostname {S} : M S string :=
  fun os g =>
    {| result := sys_gethostname os; globals := g;
       events := [Gethostname (sys_gethostname os)] |}.

End Py.

Notation "x <- m ;; k" := (Py.bind m (fun x => k))
  (at level 61, m at next level, right associativity).

(* ------------------------------------------------------------------ *)
(** * The framework

    The operations of Flask (and of Werkzeug beneath it) that app.py calls,
    with the behaviour they have for this program: literal rules only, the
    default method set, no registered error handler, debug off.

    A [Request] is the request as the router sees it: [path] is the routed
    path, already percent-decoded and with its leading slashes collapsed to
    one; it is empty when the request names no path at all.

    Not modelled: the rule [/static/<path:filename>] that [Flask(...)]
    registers for static files, with its view, and the second matching pass
    with doubled slashes merged, which for this program can only ever reach
    that rule.  The statements below either hold with that rule present or
    leave the paths under [/static/] out. *)

Module Flask.

Inductive Method : Type :=
| GET | HEAD | POST | PUT | DELETE | CONNECT | OPTIONS | TRACE | PATCH.

Definition Method_eqb (a b : Method) : bool :=
  match a, b with
  | GET, GET | HEAD, HEAD | POST, POST | PUT, PUT | DELETE, DELETE
  | CONNECT, CONNECT | OPTIONS, OPTIONS | TRACE, TRACE | PATCH, PATCH => true
  | _, _ => false
  end.

Definition Method_name (m : Method) : string :=
  match m with
  | GET => "GET" | HEAD => "HEAD" | POST => "POST" | PUT => "PUT"
  | DELETE => "DELETE" | CONNECT => "CONNECT" | OPTIONS => "OPTIONS"
  | TRACE => "TRACE" | PATCH => "PATCH"
  end.

Definition has_method (m : Method) (l : list Method) : bool :=
  existsb (Method_eqb m) l.

Record Rule : Type :=
  { rule : string; methods : list Method; endpoint : string;
    provide_automatic_options : bool }.

Record Request : Type := { method : Method; path : string }.

Record Response : Type :=
  { status_code : Z; headers : list (string * string); data : string }.

Definition nl : string := String (ascii_of_nat 10) EmptyString.

(** [jsonify(d)]: status 200, the JSON mimetype, and the compact text of
    [d] with sorted keys followed by a newline. *)
Definition jsonify (d : pydict) : Response :=
  {| status_code := 200;
     headers := [("Content-Type", "application/json")];
     data := Json.dumps d ++ nl |}.

(** [Response.get_json()]: the object that the body denotes, if any. *)
Definition get_json (r : Response) : option pydict := Json.loads (data r).


(** ** HTTP exceptions and their default pages *)

Record HTTPException : Type :=
  { code : Z; name : string; description : string; allow : list Method }.

Definition NotFound : HTTPException :=
  {| code := 404; name := "Not Found";
     description := "The requested URL was not found on the server. If you entered the URL manually please check your spelling and try again.";
     allow := [] |}.

Definition MethodNotAllowed (valid_methods : list Method) : HTTPException :=
  {| code := 405; name := "Method Not Allowed";
     description := "The method is not allowed for the requested URL.";
     allow := valid_methods |}.

Definition InternalServerError : HTTPException :=
  {| code := 500; name := "Internal Server Error";
     description := "The server encountered an internal error and was unable to complete your request. Either the server is overloaded or there is an error in the application.";
     allow := [] |}.

Definition get_body (e : HTTPException) : string :=
  "<!doctype html>" ++ nl ++
  "<html lang=en>" ++ nl ++
  "<title>" ++ NilZero.string_of_int (Z.to_int (code e)) ++ " " ++ name e
    ++ "</title>" ++ nl ++
  "<h1>" ++ name e ++ "</h1>" ++ nl ++
  "<p>" ++ description e ++ "</p>" ++ nl.

Definition allow_header (l : list Method) : list (string * string) :=
  match l with
  | [] => []
  | _ => [("Allow", String.concat ", " (map Method_name l))]
  end.

Definition html : string * string := ("Content-Type", "text/html; charset=utf-8").

(** [HTTPException.get_response] *)
Definition get_response (e : HTTPException) : Response :=
  {| status_code := code e;
     headers := (html :: allow_header (allow e))%list;
     data := get_body e |}.

(** [werkzeug.utils.redirect(location, 308)], the answer to a
    [RequestRedirect].  The location is shown without scheme and host, which
    a [Request] of this model does not carry, and is written into the page
    as it is: the one location this program redirects to is [/]. *)
Definition redirect (location : string) : Response :=
  {| status_code := 308;
     headers := [html; ("Location", location)];
     data :=
       "<!doctype html>" ++ nl ++
       "<html lang=en>" ++ nl ++
       "<title>Redirecting...</title>" ++ nl ++
       "<h1>Redirecting...</h1>" ++ nl ++
       "<p>You should be redirected automatically to the target URL: <a href="
         ++ String Json.quote (location ++ String Json.quote
              (">" ++ location ++ "</a>. If not, click the link." ++ nl)) |}.

(** ** The process environment *)

(** [os.environ.get(k) == "true"] *)
Definition env_is_true (environ : pydict) (k : string) : bool :=
  match dict_get k environ with
  | Some v => String.eqb v "true"
  | None => false
  end.

(** Lower case of the letters A to Z; enough to compare [val.lower()] with
    words made of those letters and digits. *)
Definition ascii_lower (c : ascii) : ascii :=
  let n := N_of_ascii c in
  if (65 <=? n)%N && (n <=? 90)%N then ascii_of_N (n + 32) else c.

Fixpoint lower (s : string) : string :=
  match s with
  | EmptyString => EmptyString
  | String c rest => String (ascii_lower c) (lower rest)
  end.

(** [get_debug_flag()]: FLASK_DEBUG is set, not empty, and none of 0, false,
    no. *)
Definition get_debug_flag (environ : pydict) : bool :=
  match dict_get "FLASK_DEBUG" environ with
  | None => false
  | Some EmptyString => false
  | Some val =>
      negb (String.eqb (lower val) "0" || String.eqb (lower val) "false"
            || String.eqb (lower val) "no")
  end.

(** ** The application object *)

Section Application.

(** [F]: the function objects of the program; [S]: its mutable state.
    [fn_name] is [__name__]; [call] runs a function object. *)
Variables F S : Type.
Variable fn_name : F -> string.
Variable call : F -> Py.M S Response.

Record App : Type :=
  { import_name : string;
    url_map : list Rule;
    view_functions : list (string * F) }.

(** [Flask(import_name)] *)
Definition new (import_name : string) : App :=
  {| import_name := import_name; url_map := []; view_functions := [] |}.

(** [add_url_rule]: the methods default to GET; OPTIONS is added for the
    automatic answer, HEAD whenever GET is there.  The rule goes to the end
    of the map, the function into the dictionary of views. *)
Definition add_url_rule (r : string) (ep : string) (f : F)
    (ms : option (list Method)) (a : App) : App :=
  let ms0 := match ms with Some l => l | None => [GET] end in
  let auto := negb (has_method OPTIONS ms0) in
  let ms1 := if auto then (ms0 ++ [OPTIONS])%list else ms0 in
  let ms2 := if has_method GET ms1 && negb (has_method HEAD ms1)
             then (ms1 ++ [HEAD])%list else ms1 in
  {| import_name := import_name a;
     url_map := (url_map a ++
                 [{| rule := r; methods := ms2; endpoint := ep;
                     provide_automatic_options := auto |}])%list;
     view_functions := (ep, f) :: view_functions a |}.

(** [@app.route(r)] applied to [f]: the endpoint is the function's name. *)
Definition route (r : string) (f : F) (a : App) : App :=
  add_url_rule r (fn_name f) f None a.

(** ** Routing *)

Inductive routing : Type :=
| Matched (r : Rule)
| RequestRedirect (new_path : string)
| RoutingException (e : HTTPException).

(** The rules whose string is the path: the first one that accepts the
    method wins; the others contribute their methods to [have_match_for],
    which is the answer when none accepts it. *)
Fixpoint match_exact (rules : list Rule) (m : Method) (p : string)
    (have_match_for : list Method) : Rule + list Method :=
  match rules with
  | [] => inr have_match_for
  | r :: rest =>
      if String.eqb (rule r) p then
        if has_method m (methods r) then inl r
        else match_exact rest m p (have_match_for ++ methods r)%list
      else match_exact rest m p have_match_for
  end.

(** [SlashRequired]: some rule is the path followed by a slash and accepts
    the method (rules are strict about slashes by default). *)
Definition slash_required (rules : list Rule) (m : Method) (p : string) : bool :=
  existsb (fun r => String.eqb (rule r) (p ++ "/") && has_method m (methods r))
          rules.

(** [MapAdapter.match] on literal rules: a rule that matches path and method;
    failing that a redirect to the path with a slash added, when a rule
    wants that; failing that 405 when some rule matched the path alone, and
    404 otherwise. *)
Definition match_rules (rules : list Rule) (m : Method) (p : string) : routing :=
  match match_exact rules m p [] with
  | inl r => Matched r
  | inr have_match_for =>
      if slash_required rules m p then RequestRedirect (p ++ "/")
      else match have_match_for with
           | [] => RoutingException NotFound
           | _ => RoutingException (MethodNotAllowed have_match_for)
           end
  end.

Fixpoint lookup_view (ep : string) (l : list (string * F)) : option F :=
  match l with
  | [] => None
  | (k, f) :: rest => if String.eqb k ep then Some f else lookup_view ep rest
  end.

(** [make_default_options_response] *)
Definition options_response (a : App) (p : string) : Response :=
  {| status_code := 200;
     headers :=
       (html :: allow_header
          (flat_map (fun r => if String.eqb (rule r) p then methods r else [])
                    (url_map a)))%list;
     data := EmptyString |}.

Record served : Type :=
  { response : Response; after : S; log : list Py.event }.

(** [wsgi_app]: route, answer a redirect or a routing exception with its
    page, answer OPTIONS automatically, otherwise call the view; an
    exception that escapes the view becomes the 500 page.  The body of the
    answer to a HEAD request is dropped. *)
Definition wsgi_app (a : App) (req : Request) (os : Py.OS) (g : S) : served :=
  let finish (r : Response) :=
    match method req with
    | HEAD => {| status_code := status_code r; headers := headers r;
                 data := EmptyString |}
    | _ => r
    end in
  match match_rules (url_map a) (method req) (path req) with
  | RequestRedirect new_path =>
      {| response := finish (redirect new_path); after := g; log := [] |}
  | RoutingException e =>
      {| response := finish (get_response e); after := g; log := [] |}
  | Matched r =>
      if provide_automatic_options r && Method_eqb (method req) OPTIONS then
        {| response := options_response a (path req); after := g; log := [] |}
      else
        match lookup_view (endpoint r) (view_functions a) with
        | None =>
            {| response := finish (get_response InternalServerError);
               after := g; log := [] |}
        | Some f =>
            let o := call f os g in
            {| response :=
                 finish match Py.result o with
                        | inr resp => resp
                        | inl _ => get_response InternalServerError
                        end;
               after := Py.globals o;
               log := Py.ViewCalled (endpoint r) :: Py.events o |}
        end
  end.

(** The serving loop on a finite run of requests; each request meets the
    operating system as it is when the request arrives. *)
Fixpoint serve (handle : Request -> Py.OS -> S -> served) (g : S)
    (arrivals : list (Py.OS * Request)) : list (Response * list Py.event) * S :=
  match arrivals with
  | [] => ([], g)
  | (os, req) :: rest =>
      let s := handle req os g in
      let (answers, g') := serve handle (after s) rest in
      ((response s, log s) :: answers, g')
  end.

(** The address a server listens on, and its debug flag. *)
Record Server : Type := { host : string; port : Z; debug : bool }.

(** What a call of [run] comes to. *)
Inductive started : Type :=
| Ignored
| Listening (s : Server)
| Inherited (fd : option string).

(** [app.run(host, port, debug)] in the environment [environ].
    - With FLASK_RUN_FROM_CLI set to true the call returns at once: no
      server is started.
    - With WERKZEUG_RUN_MAIN set to true the process takes itself for the
      child of a reloader: [run_simple] does not bind host and port but
      takes the socket from the descriptor named by WERKZEUG_SERVER_FD.
    - Otherwise a socket is bound: a host that is missing or empty becomes
      127.0.0.1, a missing port 5000, a missing debug flag the one of the
      environment.
    The application sets no SERVER_NAME; the files that [load_dotenv] would
    read are left out: the repository ships none. *)
Definition run (a : App) (environ : pydict) (h : option string) (p : option Z)
    (d : option bool) : started :=
  if env_is_true environ "FLASK_RUN_FROM_CLI" then Ignored
  else if env_is_true environ "WERKZEUG_RUN_MAIN"
  then Inherited (dict_get "WERKZEUG_SERVER_FD" environ)
  else Listening
         {| host := match h with
                    | Some EmptyString | None => "127.0.0.1"
                    | Some x => x
                    end;
            port := match p with Some x => x | None => 5000 end;
            debug := match d with Some x => x | None => get_debug_flag environ end |}.

End Application.

Arguments import_name {F} _.
Arguments url_map {F} _.
Arguments view_functions {F} _.
Arguments response {S} _.
Arguments after {S} _.
Arguments log {S} _.

End Flask.

(* ------------------------------------------------------------------ *)
(** * app.py *)

Module App.
Import Flask.

(** The function objects that the two [def] statements create. *)
Inductive function : Type := Fhello | Fhealth.

Definition fn_name (f : function) : string :=
  match f with Fhello => "hello" | Fhealth => "health" end.

(** The module's mutable state: the global [app]. *)
Record Globals : Type := { app : Flask.App function }.

(** lines 8-14 *)
Definition hello : Py.M Globals Response :=
  hostname <- Py.gethostname ;;
  Py.ret (jsonify [("message", "Hello from Docker Swarm!");
                   ("hostname", hostname);
                   ("version", "1.0.0")]).

(** lines 17-18 *)
Definition health : Py.M Globals Response :=
  Py.ret (jsonify [("status", "healthy")]).

Definition call (f : function) : Py.M Globals Response :=
  match f with Fhello => hello | Fhealth => health end.

(** lines 5-18: the module body, executed on import or as a script. *)
Definition module_body (dunder_name : string) : Globals :=
  let app0 := Flask.new function dunder_name in
  let app1 := Flask.route function fn_name "/" Fhello app0 in
  let app2 := Flask.route function fn_name "/health" Fhealth app1 in
  {| app := app2 |}.

(** lines 20-21: what the process does once the module body is done.
    app.py reads neither the command line nor the environment; [run] reads
    the environment. *)
Definition main (dunder_name : string) (argv : list string)
    (environ : pydict) : option started :=
  let g := module_body dunder_name in
  if String.eqb dunder_name "__main__"
  then Some (Flask.run function (app g) environ
               (Some "0.0.0.0") (Some 5000%Z) (Some false))
  else None.

(** The state a server process starts from. *)
Definition initial : Globals := module_body "__main__".

(** One request through the application held in the globals. *)
Definition handle (req : Request) (os : Py.OS) (g : Globals) : served Globals :=
  Flask.wsgi_app function Globals call (app g) req os g.

Definition serve_all (arrivals : list (Py.OS * Request))
  : list (Response * list Py.event) * Globals :=
  Flask.serve Globals handle initial arrivals.

End App.

(* ------------------------------------------------------------------ *)
(** * Observations on answers, logs and bodies *)

Module Observe.
Import Flask.

(** What one arrival is answered, and what is logged for it, by a process
    that has served nothing yet. *)
Definition answer (x : Py.OS * Request) : Response * list Py.event :=
  (response (App.handle (snd x) (fst x) App.initial),
   log (App.handle (snd x) (fst x) App.initial)).

Definition is_lookup (e : Py.event) : bool :=
  match e with
  | Py.Gethostname _ => true
  | Py.ViewCalled _ => false
  end.

(** How many times a log shows the hostname being asked for. *)
Definition lookups (l : list Py.event) : nat := length (filter is_lookup l).

(** The characters from space to tilde. *)
Definition printable (c : ascii) : bool :=
  (32 <=? N_of_ascii c)%N && (N_of_ascii c <=? 126)%N.

Definition all_printable (s : string) : bool :=
  forallb printable (list_ascii_of_string s).

(** Order of two members by their keys. *)
Definition key_le (a b : string * string) : Prop :=
  String.leb (fst a) (fst b) = true.

End Observe.

(* ------------------------------------------------------------------ *)
(** * Properties of the JSON text *)

Module JsonFacts.
Import Json.

Lemma append_assoc (a b c : string) : ((a ++ b) ++ c = a ++ (b ++ c))%string.
Proof. induction a as [|x a IH]; simpl; [reflexivity | now rewrite IH]. Qed.

Lemma snoc_append (cur : string) (c : ascii) (s : string) :
  (snoc cur c ++ s = cur ++ String c s)%string.
Proof. unfold snoc. now rewrite append_assoc. Qed.

Lemma append_empty_r (a : string) : (a ++ EmptyString)%string = a.
Proof. induction a as [|x a IH]; simpl; [reflexivity | now rewrite IH]. Qed.

(** The reader undoes the escaping of one character. *)
Lemma scan_escaped_char (c : ascii) (key : option string) (cur : string)
    (acc : pydict) (rest : string) :
  scan (InString key cur) acc
       ((if escape_ascii_match c then replace c else String c EmptyString) ++ rest)
  = scan (InString key (snoc cur c)) acc rest.
Proof.
  destruct c as [[|] [|] [|] [|] [|] [|] [|] [|]]; reflexivity.
Qed.

(** ... and hence of a whole string. *)
Lemma scan_escaped (s : string) : forall key cur acc rest,
  scan (InString key cur) acc (escape_sub s ++ rest)
  = scan (InString key (cur ++ s)) acc rest.
Proof.
  induction s as [|c s IH]; intros key cur acc rest.
  - simpl. now rewrite append_empty_r.
  - cbn [escape_sub]. rewrite append_assoc, scan_escaped_char, IH.
    now rewrite snoc_append.
Qed.

Lemma scan_quote_key (cur : string) (acc : pydict) (rest : string) :
  scan (InString None cur) acc (String quote rest) = scan (ExpectColon cur) acc rest.
Proof. reflexivity. Qed.

Lemma scan_quote_value (k cur : string) (acc : pydict) (rest : string) :
  scan (InString (Some k) cur) acc (String quote rest)
  = scan ExpectCommaOrClose (acc ++ [(k, cur)])%list rest.
Proof. reflexivity. Qed.

(** A member [key:value], read from the state that follows the opening
    quote of the key. *)
Lemma scan_member (k v : string) (acc : pydict) (rest : string) :
  scan (InString None EmptyString) acc
       (escape_sub k ++ String quote
          (String ":" (encode_basestring_ascii v ++ rest)))
  = scan ExpectCommaOrClose (acc ++ [(k, v)])%list rest.
Proof.
  rewrite scan_escaped, scan_quote_key. cbn [append].
  unfold encode_basestring_ascii.
  change (scan (ExpectColon k) acc
            (String ":" (String quote (escape_sub v ++ String quote EmptyString) ++ rest)))
    with (scan (InString (Some k) EmptyString) acc
            ((escape_sub v ++ String quote EmptyString) ++ rest)).
  rewrite append_assoc, scan_escaped. reflexivity.
Qed.

Lemma scan_blank (t : string) (acc : pydict) :
  blank t = true -> scan ExpectEnd acc t = Some acc.
Proof.
  unfold blank. induction t as [|c t IH]; simpl; intro H; [reflexivity|].
  apply andb_true_iff in H as [Hc Ht]. rewrite Hc. now apply IH.
Qed.

Lemma encode_member_shape (first : bool) (k v : string) (l : pydict) (t : string) :
  (encode_items first ((k, v) :: l) ++ t)%string
  = ((if first then EmptyString else ",") ++
      String quote (escape_sub k ++ String quote
         (String ":" (encode_basestring_ascii v ++ (encode_items false l ++ t)))))%string.
Proof.
  cbn [encode_items]. unfold encode_basestring_ascii at 1.
  rewrite !append_assoc. cbn [append]. rewrite !append_assoc. reflexivity.
Qed.

(** The members after the first are read back in order. *)
Lemma scan_items (l : pydict) : forall acc t,
  blank t = true ->
  scan ExpectCommaOrClose acc (encode_items false l ++ t) = Some (acc ++ l)%list.
Proof.
  induction l as [|[k v] l IH]; intros acc t Ht.
  - cbn. rewrite app_nil_r. now apply scan_blank.
  - rewrite encode_member_shape.
    change (scan ExpectCommaOrClose acc _)
      with (scan (InString None EmptyString) acc
              (escape_sub k ++ String quote
                 (String ":" (encode_basestring_ascii v ++ (encode_items false l ++ t))))).
    rewrite scan_member, IH by assumption.
    now rewrite <- app_assoc.
Qed.

(** [loads] inverts [dumps], up to the order of the keys and white space
    after the text. *)
Lemma loads_dumps (d : pydict) (t : string) :
  blank t = true -> loads (dumps d ++ t) = Some (sorted d).
Proof.
  intro Ht. unfold loads, dumps.
  destruct (sorted d) as [|[k v] l].
  - cbn. now apply scan_blank.
  - cbn [append]. rewrite encode_member_shape.
    change (scan ExpectObject [] _)
      with (scan (InString None EmptyString) []
              (escape_sub k ++ String quote
                 (String ":" (encode_basestring_ascii v ++ (encode_items false l ++ t))))).
    rewrite scan_member. now rewrite scan_items.
Qed.

End JsonFacts.

(* ------------------------------------------------------------------ *)
(** * Properties of the application *)

Import Flask.

(** ** The routing table and single steps of the dispatch *)

Lemma url_map_initial :
  url_map (App.app App.initial)
  = [ {| rule := "/"; methods := [GET; OPTIONS; HEAD]; endpoint := "hello";
         provide_automatic_options := true |};
      {| rule := "/health"; methods := [GET; OPTIONS; HEAD]; endpoint := "health";
         provide_automatic_options := true |} ].
Proof. reflexivity. Qed.

Lemma view_functions_initial :
  view_functions (App.app App.initial)
  = [("health", App.Fhealth); ("hello", App.Fhello)].
Proof. reflexivity. Qed.

(** Which rule a request meets in the table of app.py. *)
Lemma match_root (m : Method) :
  match_rules (url_map (App.app App.initial)) m "/"
  = if has_method m [GET; OPTIONS; HEAD]
    then Matched {| rule := "/"; methods := [GET; OPTIONS; HEAD];
                    endpoint := "hello"; provide_automatic_options := true |}
    else RoutingException (MethodNotAllowed [GET; OPTIONS; HEAD]).
Proof. rewrite url_map_initial. destruct m; reflexivity. Qed.

Lemma match_health (m : Method) :
  match_rules (url_map (App.app App.initial)) m "/health"
  = if has_method m [GET; OPTIONS; HEAD]
    then Matched {| rule := "/health"; methods := [GET; OPTIONS; HEAD];
                    endpoint := "health"; provide_automatic_options := true |}
    else RoutingException (MethodNotAllowed [GET; OPTIONS; HEAD]).
Proof. rewrite url_map_initial. destruct m; reflexivity. Qed.

(** The empty path: the rule [/] wants a slash added, for the methods it
    accepts. *)
Lemma match_empty (m : Method) :
  match_rules (url_map (App.app App.initial)) m EmptyString
  = if has_method m [GET; OPTIONS; HEAD]
    then RequestRedirect "/"
    else RoutingException NotFound.
Proof. rewrite url_map_initial. destruct m; reflexivity. Qed.

Lemma append_slash_not_root (p : string) :
  p <> EmptyString -> String.eqb "/" (p ++ "/") = false.
Proof.
  intro H. apply String.eqb_neq. destruct p as [|c [|d p]]; cbn;
    [congruence | discriminate | discriminate].
Qed.

Lemma append_slash_not_health (p : string) :
  String.eqb "/health" (p ++ "/") = false.
Proof.
  apply String.eqb_neq. intro H.
  do 7 (destruct p as [|? p]; cbn in H; [discriminate H|];
        injection H as ? H).
  destruct p; discriminate H.
Qed.

Lemma match_elsewhere (m : Method) (p : string) :
  p <> EmptyString -> p <> "/" -> p <> "/health" ->
  match_rules (url_map (App.app App.initial)) m p = RoutingException NotFound.
Proof.
  intros H0 H1 H2. rewrite url_map_initial.
  unfold match_rules, slash_required. cbn [match_exact existsb rule].
  assert (E1 : String.eqb "/" p = false) by (apply String.eqb_neq; congruence).
  assert (E2 : String.eqb "/health" p = false) by (apply String.eqb_neq; congruence).
  rewrite E1, E2, append_slash_not_root, append_slash_not_health by assumption.
  reflexivity.
Qed.

(** A GET request for [/] runs [hello], whatever the system answers. *)
Lemma handle_get_root (os : Py.OS) (g : App.Globals) :
  App.app g = App.app App.initial ->
  App.handle {| method := GET; path := "/" |} os g
  = {| response := match Py.result (App.hello os g) with
                   | inr resp => resp
                   | inl _ => get_response InternalServerError
                   end;
       after := Py.globals (App.hello os g);
       log := Py.ViewCalled "hello" :: Py.events (App.hello os g) |}.
Proof.
  intro Hg. unfold App.handle, wsgi_app. rewrite Hg.
  cbn [method path]. rewrite match_root. reflexivity.
Qed.

Lemma handle_get_health (os : Py.OS) (g : App.Globals) :
  App.app g = App.app App.initial ->
  App.handle {| method := GET; path := "/health" |} os g
  = {| response := jsonify [("status", "healthy")];
       after := g;
       log := [Py.ViewCalled "health"] |}.
Proof.
  intro Hg. unfold App.handle, wsgi_app. rewrite Hg.
  cbn [method path]. rewrite match_health. reflexivity.
Qed.

(** ** What the views do *)

Lemma hello_unfold (os : Py.OS) (g : App.Globals) :
  App.hello os g
  = {| Py.result :=
         match Py.sys_gethostname os with
         | inl e => inl e
         | inr h => inr (jsonify [("message", "Hello from Docker Swarm!");
                                  ("hostname", h); ("version", "1.0.0")])
         end;
       Py.globals := g;
       Py.events := [Py.Gethostname (Py.sys_gethostname os)] |}.
Proof.
  unfold App.hello, Py.bind, Py.gethostname, Py.ret. cbn.
  destruct (Py.sys_gethostname os); reflexivity.
Qed.

Lemma call_keeps_globals (f : App.function) (os : Py.OS) (g : App.Globals) :
  Py.globals (App.call f os g) = g.
Proof. destruct f; cbn [App.call]; [now rewrite hello_unfold | reflexivity]. Qed.

(** No request changes the globals: every branch of the dispatch hands back
    the state it was given or the state its view left. *)
Lemma handle_keeps_globals (req : Request) (os : Py.OS) (g : App.Globals) :
  after (App.handle req os g) = g.
Proof.
  unfold App.handle, wsgi_app.
  destruct (match_rules _ _ _) as [r|new_path|e]; [|reflexivity|reflexivity].
  destruct (provide_automatic_options r && Method_eqb (method req) OPTIONS);
    [reflexivity|].
  destruct (lookup_view _ _ _) as [f|]; [|reflexivity].
  cbn [after]. apply call_keeps_globals.
Qed.

Lemma serve_keeps_globals (arrivals : list (Py.OS * Request)) (g : App.Globals) :
  snd (serve App.Globals App.handle g arrivals) = g.
Proof.
  revert g. induction arrivals as [|[os req] rest IH]; intro g; [reflexivity|].
  cbn [serve]. rewrite handle_keeps_globals.
  specialize (IH g). destruct (serve _ _ g rest) as [answers g']. exact IH.
Qed.

(** The answer to the request that arrives after [before] is the answer of
    a server that has seen nothing yet. *)
Lemma serve_nth (before rest : list (Py.OS * Request)) (os : Py.OS)
    (req : Request) (g : App.Globals) :
  nth_error (fst (serve App.Globals App.handle g (before ++ (os, req) :: rest)))
            (length before)
  = Some (response (App.handle req os g), log (App.handle req os g)).
Proof.
  revert g. induction before as [|[os0 req0] before IH]; intro g.
  - cbn [app serve length]. destruct (serve _ _ _ rest). reflexivity.
  - cbn [app serve length]. rewrite handle_keeps_globals.
    specialize (IH g).
    destruct (serve _ _ g (before ++ (os, req) :: rest)) as [answers g'].
    exact IH.
Qed.

Lemma hello_body_json (h : string) :
  get_json (jsonify [("message", "Hello from Docker Swarm!");
                     ("hostname", h); ("version", "1.0.0")])
  = Some [("hostname", h); ("message", "Hello from Docker Swarm!");
          ("version", "1.0.0")].
Proof.
  unfold get_json, jsonify. cbn [data].
  now rewrite JsonFacts.loads_dumps.
Qed.

(** ** The two scenarios of the specification, as texts *)

Example health_body_text :
  data (jsonify [("status", "healthy")])
  = String "{" (String Json.quote ("status" ++ String Json.quote (String ":"
      (String Json.quote ("healthy" ++ String Json.quote ("}" ++ nl)))))).
Proof. reflexivity. Qed.

Example hello_on_node_7 :
  get_json (response (App.handle {| method := GET; path := "/" |}
                        {| Py.sys_gethostname := inr "node-7" |} App.initial))
  = Some [("hostname", "node-7"); ("message", "Hello from Docker Swarm!");
          ("version", "1.0.0")].
Proof. reflexivity. Qed.

(** A hostname with a quote, a backslash and a control character in it
    still comes back as it was. *)
Example hello_on_odd_name :
  let odd := String Json.quote (String Json.backslash (String (ascii_of_nat 7) "x")) in
  get_json (response (App.handle {| method := GET; path := "/" |}
                        {| Py.sys_gethostname := inr odd |} App.initial))
  = Some [("hostname", odd); ("message", "Hello from Docker Swarm!");
          ("version", "1.0.0")].
Proof. reflexivity. Qed.

(* ------------------------------------------------------------------ *)
(** * The specification, claim by claim *)

(** C1.  A GET request for [/], served while the hostname lookup answers
    the string [h], gets status 200 and a body that is JSON text for an
    object with exactly the keys [hostname], [message], [version], where
    [message] is "Hello from Docker Swarm!", [version] is "1.0.0" and
    [hostname] is [h]. *)
Theorem hello_response (os : Py.OS) (h : string) (req : Request) :
  method req = GET -> path req = "/" -> Py.sys_gethostname os = inr h ->
  status_code (response (App.handle req os App.initial)) = 200%Z /\
  exists obj : pydict,
    get_json (response (App.handle req os App.initial)) = Some obj /\
    dict_keys obj = ["hostname"; "message"; "version"] /\
    dict_get "message" obj = Some "Hello from Docker Swarm!" /\
    dict_get "version" obj = Some "1.0.0" /\
    dict_get "hostname" obj = Some h.
Proof.
  destruct req as [m p]. cbn [method path]. intros -> -> Hh.
  rewrite handle_get_root by reflexivity. cbn [response].
  rewrite hello_unfold. cbn [Py.result]. rewrite Hh.
  split; [reflexivity|].
  eexists. split; [apply hello_body_json|]. repeat split.
Qed.

Lemma hello_response_witness :
  status_code (response (App.handle {| method := GET; path := "/" |}
                           {| Py.sys_gethostname := inr "node-7" |} App.initial))
  = 200%Z /\
  exists obj : pydict,
    get_json (response (App.handle {| method := GET; path := "/" |}
                          {| Py.sys_gethostname := inr "node-7" |} App.initial))
    = Some obj /\
    dict_keys obj = ["hostname"; "message"; "version"] /\
    dict_get "message" obj = Some "Hello from Docker Swarm!" /\
    dict_get "version" obj = Some "1.0.0" /\
    dict_get "hostname" obj = Some "node-7".
Proof.
  apply (hello_response {| Py.sys_gethostname := inr "node-7" |} "node-7"
           {| method := GET; path := "/" |}); reflexivity.
Defined.

(** C2.  A GET request for [/health] gets status 200 and a body that
    denotes the object with the single member [status] = "healthy"; the
    whole answer is the same constant whatever the operating system would
    say, and the system is not asked anything. *)
Theorem health_response (os : Py.OS) (req : Request) :
  method req = GET -> path req = "/health" ->
  response (App.handle req os App.initial) = jsonify [("status", "healthy")] /\
  status_code (response (App.handle req os App.initial)) = 200%Z /\
  get_json (response (App.handle req os App.initial)) = Some [("status", "healthy")] /\
  log (App.handle req os App.initial) = [Py.ViewCalled "health"].
Proof.
  destruct req as [m p]. cbn [method path]. intros -> ->.
  rewrite handle_get_health by reflexivity. repeat split.
Qed.

Lemma health_response_witness :
  response (App.handle {| method := GET; path := "/health" |}
              {| Py.sys_gethostname := inl (Py.OSError 14) |} App.initial)
  = jsonify [("status", "healthy")] /\
  status_code (response (App.handle {| method := GET; path := "/health" |}
                 {| Py.sys_gethostname := inl (Py.OSError 14) |} App.initial))
  = 200%Z /\
  get_json (response (App.handle {| method := GET; path := "/health" |}
              {| Py.sys_gethostname := inl (Py.OSError 14) |} App.initial))
  = Some [("status", "healthy")] /\
  log (App.handle {| method := GET; path := "/health" |}
         {| Py.sys_gethostname := inl (Py.OSError 14) |} App.initial)
  = [Py.ViewCalled "health"].
Proof.
  apply (health_response {| Py.sys_gethostname := inl (Py.OSError 14) |}
           {| method := GET; path := "/health" |}); reflexivity.
Defined.

(** C3.  Whatever requests were served before and whatever the system
    answered then, a GET request for [/] makes the view ask the system
    once, at that moment, and when the answer is a string the [hostname]
    member of the body is that string. *)
Theorem hello_lookup_is_fresh (before rest : list (Py.OS * Request))
    (os : Py.OS) (req : Request) :
  method req = GET -> path req = "/" ->
  exists r : Response,
    nth_error (fst (App.serve_all (before ++ (os, req) :: rest))) (length before)
    = Some (r, [Py.ViewCalled "hello"; Py.Gethostname (Py.sys_gethostname os)]) /\
    forall h : string,
      Py.sys_gethostname os = inr h ->
      exists obj : pydict,
        get_json r = Some obj /\ dict_get "hostname" obj = Some h.
Proof.
  destruct req as [m p]. cbn [method path]. intros -> ->.
  unfold App.serve_all. rewrite serve_nth.
  rewrite handle_get_root by reflexivity. cbn [response log].
  rewrite hello_unfold. cbn [Py.result Py.events].
  eexists. split; [reflexivity|].
  intros h Hh. rewrite Hh. eexists. split; [apply hello_body_json|reflexivity].
Qed.

Lemma hello_lookup_is_fresh_witness :
  exists r : Response,
    nth_error
      (fst (App.serve_all
              ([({| Py.sys_gethostname := inr "old-name" |},
                 {| method := GET; path := "/" |})]
               ++ ({| Py.sys_gethostname := inr "node-7" |},
                   {| method := GET; path := "/" |}) :: [])))
      (length [({| Py.sys_gethostname := inr "old-name" |},
                {| method := GET; path := "/" |})])
    = Some (r, [Py.ViewCalled "hello"; Py.Gethostname (inr "node-7")]) /\
    forall h : string,
      inr "node-7" = inr h :> Py.exn + string ->
      exists obj : pydict,
        get_json r = Some obj /\ dict_get "hostname" obj = Some h.
Proof.
  apply (hello_lookup_is_fresh
           [({| Py.sys_gethostname := inr "old-name" |},
             {| method := GET; path := "/" |})]
           [] {| Py.sys_gethostname := inr "node-7" |}
           {| method := GET; path := "/" |}); reflexivity.
Defined.




(** C5.  When the hostname lookup raises [e] during a GET request for [/],
    the view ends with that same exception raised, the framework answers
    with its "internal server error" page, status 500, and the body of that
    answer is no JSON object at all. *)
Theorem hello_lookup_failure (os : Py.OS) (e : Py.exn) (req : Request)
    (g : App.Globals) :
  method req = GET -> path req = "/" -> Py.sys_gethostname os = inl e ->
  Py.result (App.hello os g) = inl e /\
  response (App.handle req os App.initial) = get_response InternalServerError /\
  status_code (response (App.handle req os App.initial)) = 500%Z /\
  get_json (response (App.handle req os App.initial)) = None.
Proof.
  destruct req as [m p]. cbn [method path]. intros -> -> He.
  rewrite handle_get_root by reflexivity. cbn [response].
  rewrite !hello_unfold. cbn [Py.result]. rewrite He. repeat split.
Qed.

Lemma hello_lookup_failure_witness :
  Py.result (App.hello {| Py.sys_gethostname := inl (Py.OSError 14) |} App.initial)
  = inl (Py.OSError 14) /\
  response (App.handle {| method := GET; path := "/" |}
              {| Py.sys_gethostname := inl (Py.OSError 14) |} App.initial)
  = get_response InternalServerError /\
  status_code (response (App.handle {| method := GET; path := "/" |}
                 {| Py.sys_gethostname := inl (Py.OSError 14) |} App.initial))
  = 500%Z /\
  get_json (response (App.handle {| method := GET; path := "/" |}
              {| Py.sys_gethostname := inl (Py.OSError 14) |} App.initial))
  = None.
Proof.
  apply (hello_lookup_failure {| Py.sys_gethostname := inl (Py.OSError 14) |}
           (Py.OSError 14) {| method := GET; path := "/" |} App.initial);
    reflexivity.
Defined.

(** C6.  A view leaves the globals as it found them, so does the handling
    of any single request, and after any run of requests the server's state
    is the state it started from. *)
Theorem handlers_keep_state :
  (forall (f : App.function) (os : Py.OS) (g : App.Globals),
      Py.globals (App.call f os g) = g) /\
  (forall (req : Request) (os : Py.OS) (g : App.Globals),
      after (App.handle req os g) = g) /\
  (forall arrivals : list (Py.OS * Request),
      snd (App.serve_all arrivals) = App.initial).
Proof.
  split; [exact call_keeps_globals|].
  split; [exact handle_keeps_globals|].
  intro arrivals. apply serve_keeps_globals.
Qed.


(** C8, as it fails.  Run as a script in an environment where
    FLASK_RUN_FROM_CLI is true, the program starts no server at all: the
    call of [app.run] returns at once, so nothing is bound to 0.0.0.0, port
    5000. *)
Lemma run_ignored_from_cli :
  App.main "__main__" ["app.py"] [("FLASK_RUN_FROM_CLI", "true")] = Some Ignored /\
  App.main "__main__" ["app.py"] [("FLASK_RUN_FROM_CLI", "true")]
  <> Some (Listening {| host := "0.0.0.0"; port := 5000; debug := false |}).
Proof. split; [reflexivity | discriminate]. Qed.

(** C8, amended.  Run as a script, the program has the framework bind a
    server to 0.0.0.0, port 5000, debug off, for every command line and
    every environment in which neither FLASK_RUN_FROM_CLI nor
    WERKZEUG_RUN_MAIN is true: no argument and no other variable changes
    the address or the port. *)
Theorem main_binds_all_interfaces (argv : list string) (environ : pydict) :
  dict_get "FLASK_RUN_FROM_CLI" environ <> Some "true" ->
  dict_get "WERKZEUG_RUN_MAIN" environ <> Some "true" ->
  App.main "__main__" argv environ
  = Some (Listening {| host := "0.0.0.0"; port := 5000; debug := false |}).
Proof.
  intros Hcli Hmain. unfold App.main. cbn [String.eqb Ascii.eqb Bool.eqb].
  unfold run, env_is_true.
  destruct (dict_get "FLASK_RUN_FROM_CLI" environ) as [v|] eqn:E1.
  - destruct (String.eqb_spec v "true") as [->|_]; [congruence|].
    destruct (dict_get "WERKZEUG_RUN_MAIN" environ) as [w|] eqn:E2;
      [|reflexivity].
    destruct (String.eqb_spec w "true") as [->|_]; [congruence|reflexivity].
  - destruct (dict_get "WERKZEUG_RUN_MAIN" environ) as [w|] eqn:E2;
      [|reflexivity].
    destruct (String.eqb_spec w "true") as [->|_]; [congruence|reflexivity].
Qed.

Lemma main_binds_all_interfaces_witness :
  App.main "__main__" ["app.py"; "--host"; "127.0.0.1"; "--port"; "80"]
    [("HOST", "127.0.0.1"); ("PORT", "80"); ("FLASK_RUN_PORT", "8000");
     ("FLASK_DEBUG", "1"); ("FLASK_RUN_FROM_CLI", "false")]
  = Some (Listening {| host := "0.0.0.0"; port := 5000; debug := false |}).
Proof.
  apply (main_binds_all_interfaces
           ["app.py"; "--host"; "127.0.0.1"; "--port"; "80"]
           [("HOST", "127.0.0.1"); ("PORT", "80"); ("FLASK_RUN_PORT", "8000");
            ("FLASK_DEBUG", "1"); ("FLASK_RUN_FROM_CLI", "false")]);
    discriminate.
Defined.



(** C10.  Both rules carry the methods GET, OPTIONS and HEAD and no other;
    a request for [/] or [/health] with any other method gets the
    framework's "method not allowed" answer, status 405 (so neither 404 nor
    200), and no view is called. *)
Theorem other_method_not_allowed (os : Py.OS) (req : Request) :
  path req = "/" \/ path req = "/health" ->
  method req <> GET -> method req <> HEAD -> method req <> OPTIONS ->
  map methods (url_map (App.app App.initial))
  = [[GET; OPTIONS; HEAD]; [GET; OPTIONS; HEAD]] /\
  response (App.handle req os App.initial)
  = get_response (MethodNotAllowed [GET; OPTIONS; HEAD]) /\
  status_code (response (App.handle req os App.initial)) = 405%Z /\
  status_code (response (App.handle req os App.initial)) <> 404%Z /\
  status_code (response (App.handle req os App.initial)) <> 200%Z /\
  log (App.handle req os App.initial) = [].
Proof.
  destruct req as [m p]. cbn [method path]. intros Hp HG HH HO.
  split; [reflexivity|].
  assert (Hm : has_method m [GET; OPTIONS; HEAD] = false)
    by (destruct m; try reflexivity; congruence).
  assert (Hs : App.handle {| method := m; path := p |} os App.initial
               = {| response := get_response (MethodNotAllowed [GET; OPTIONS; HEAD]);
                    after := App.initial; log := [] |}).
  { unfold App.handle, wsgi_app. cbn [method path].
    destruct Hp as [-> | ->]; [rewrite match_root | rewrite match_health];
      rewrite Hm; destruct m; try reflexivity; congruence. }
  rewrite Hs. cbn [response log]. repeat split; discriminate.
Qed.

Lemma other_method_not_allowed_witness :
  map methods (url_map (App.app App.initial))
  = [[GET; OPTIONS; HEAD]; [GET; OPTIONS; HEAD]] /\
  response (App.handle {| method := POST; path := "/health" |}
              {| Py.sys_gethostname := inr "node-7" |} App.initial)
  = get_response (MethodNotAllowed [GET; OPTIONS; HEAD]) /\
  status_code (response (App.handle {| method := POST; path := "/health" |}
                 {| Py.sys_gethostname := inr "node-7" |} App.initial))
  = 405%Z /\
  status_code (response (App.handle {| method := POST; path := "/health" |}
                 {| Py.sys_gethostname := inr "node-7" |} App.initial))
  <> 404%Z /\
  status_code (response (App.handle {| method := POST; path := "/health" |}
                 {| Py.sys_gethostname := inr "node-7" |} App.initial))
  <> 200%Z /\
  log (App.handle {| method := POST; path := "/health" |}
         {| Py.sys_gethostname := inr "node-7" |} App.initial) = [].
Proof.
  apply (other_method_not_allowed {| Py.sys_gethostname := inr "node-7" |}
           {| method := POST; path := "/health" |});
    [right; reflexivity | discriminate | discriminate | discriminate].
Defined.

(* ------------------------------------------------------------------ *)
(** * Further properties of app.py *)

Import Observe.

(** ** Helpers *)

(** The answers of a run are the answers each arrival gets from the state
    the run starts in. *)
Lemma serve_map (l : list (Py.OS * Request)) (g : App.Globals) :
  fst (serve App.Globals App.handle g l)
  = map (fun x => (response (App.handle (snd x) (fst x) g),
                   log (App.handle (snd x) (fst x) g))) l.
Proof.
  revert g. induction l as [|[os req] l IH]; intro g; [reflexivity|].
  cbn [serve map fst snd]. rewrite handle_keeps_globals.
  specialize (IH g). destruct (serve _ _ g l) as [answers g'].
  cbn [fst] in *. now rewrite IH.
Qed.

(** The dispatch of app.py, case by case. *)
Ltac by_route p :=
  unfold App.handle, wsgi_app; cbn [method path];
  destruct (string_dec p "/") as [->|?];
  [ rewrite ?match_root
  | destruct (string_dec p "/health") as [->|?];
    [ rewrite ?match_health
    | destruct (string_dec p EmptyString) as [->|?];
      [ rewrite ?match_empty | rewrite ?match_elsewhere by assumption ] ] ].

Lemma eqb_root_false (p : string) : p <> "/" -> String.eqb p "/" = false.
Proof. intro H. now apply String.eqb_neq. Qed.

Lemma insert_item_perm (kv : string * string) (l : pydict) :
  Permutation (kv :: l) (Json.insert_item kv l).
Proof.
  induction l as [|kv' l IH]; cbn [Json.insert_item]; [apply Permutation_refl|].
  destruct (String.leb (fst kv) (fst kv')); [apply Permutation_refl|].
  eapply perm_trans; [apply perm_swap|]. now apply perm_skip.
Qed.

Lemma leb_false_flip (a b : string) : String.leb a b = false -> String.leb b a = true.
Proof. destruct (String.leb_total a b) as [H|H]; congruence. Qed.

Lemma insert_item_sorted (kv : string * string) (l : pydict) :
  Sorted key_le l -> Sorted key_le (Json.insert_item kv l).
Proof.
  induction l as [|kv' l IH]; intro Hs; cbn [Json.insert_item].
  - repeat constructor.
  - destruct (String.leb (fst kv) (fst kv')) eqn:E.
    + constructor; [assumption | constructor; exact E].
    + apply Sorted_inv in Hs as [Hs Hhd]. constructor; [now apply IH|].
      destruct l as [|kv'' l]; cbn [Json.insert_item].
      * constructor. now apply leb_false_flip.
      * destruct (String.leb (fst kv) (fst kv'')).
        -- constructor. now apply leb_false_flip.
        -- constructor. now inversion Hhd.
Qed.

Lemma replace_printable (c : ascii) :
  all_printable (if Json.escape_ascii_match c then Json.replace c
                 else String c EmptyString) = true.
Proof. destruct c as [[|] [|] [|] [|] [|] [|] [|] [|]]; reflexivity. Qed.

Lemma all_printable_append (a b : string) :
  all_printable (a ++ b) = all_printable a && all_printable b.
Proof.
  unfold all_printable. induction a as [|c a IH]; [reflexivity|].
  cbn [append list_ascii_of_string forallb]. now rewrite IH, andb_assoc.
Qed.

Lemma escape_sub_printable (s : string) : all_printable (Json.escape_sub s) = true.
Proof.
  induction s as [|c s IH]; [reflexivity|].
  cbn [Json.escape_sub]. now rewrite all_printable_append, replace_printable, IH.
Qed.

Lemma encode_items_printable (l : pydict) (first : bool) :
  all_printable (Json.encode_items first l) = true.
Proof.
  revert first. induction l as [|[k v] l IH]; intro first; [reflexivity|].
  cbn [Json.encode_items]. unfold Json.encode_basestring_ascii.
  rewrite !all_printable_append.
  change (all_printable (String Json.quote (Json.escape_sub k ++ String Json.quote EmptyString)))
    with (all_printable (Json.escape_sub k ++ String Json.quote EmptyString)).
  change (all_printable (String Json.quote (Json.escape_sub v ++ String Json.quote EmptyString)))
    with (all_printable (Json.escape_sub v ++ String Json.quote EmptyString)).
  rewrite !all_printable_append, !escape_sub_printable, IH.
  destruct first; reflexivity.
Qed.

(** ** The properties *)

(** X2.  Requests are served independently of one another: in any run,
    each arrival gets the answer (and the log) a fresh process would give
    it, so the answers to two runs put end to end are the answers to the
    first followed by the answers to the second. *)
Theorem requests_served_independently (l1 l2 : list (Py.OS * Request)) :
  fst (App.serve_all l1) = map answer l1 /\
  fst (App.serve_all (l1 ++ l2))
  = (fst (App.serve_all l1) ++ fst (App.serve_all l2))%list.
Proof.
  unfold App.serve_all. rewrite !serve_map. split; [reflexivity|].
  apply map_app.
Qed.

(** X3.  The hostname is asked for once when the request is a GET or a
    HEAD for [/], and not at all for any other request. *)
Theorem hostname_asked_only_for_root (req : Request) (os : Py.OS) :
  lookups (log (App.handle req os App.initial))
  = if String.eqb (path req) "/"
       && (Method_eqb (method req) GET || Method_eqb (method req) HEAD)
    then 1 else 0.
Proof.
  destruct req as [m p]. by_route p.
  - destruct m; try reflexivity;
      cbn; rewrite hello_unfold; reflexivity.
  - destruct m; reflexivity.
  - destruct m; reflexivity.
  - rewrite eqb_root_false by assumption. reflexivity.
Qed.

(** X4.  The answer to any request other than a GET or HEAD for [/] does
    not depend on the operating system: in particular the health route
    answers the same while the hostname lookup is failing. *)
Theorem other_requests_ignore_the_system (req : Request) (os1 os2 : Py.OS) :
  path req <> "/" \/ (method req <> GET /\ method req <> HEAD) ->
  App.handle req os1 App.initial = App.handle req os2 App.initial.
Proof.
  destruct req as [m p]. cbn [method path]. intro H. by_route p.
  - destruct H as [H|[HG HH]]; [congruence|].
    destruct m; try reflexivity; congruence.
  - destruct m; reflexivity.
  - destruct m; reflexivity.
  - reflexivity.
Qed.

Lemma other_requests_ignore_the_system_witness :
  App.handle {| method := GET; path := "/health" |}
    {| Py.sys_gethostname := inl (Py.OSError 14) |} App.initial
  = App.handle {| method := GET; path := "/health" |}
      {| Py.sys_gethostname := inr "node-7" |} App.initial.
Proof.
  apply (other_requests_ignore_the_system
           {| method := GET; path := "/health" |}
           {| Py.sys_gethostname := inl (Py.OSError 14) |}
           {| Py.sys_gethostname := inr "node-7" |}).
  left. discriminate.
Defined.

(** X5.  Every answer has status 200, 308, 404, 405 or 500, and the status
    is 500 exactly when the request is a GET or HEAD for [/] and the
    hostname lookup raises. *)
Theorem server_error_only_on_failed_lookup (req : Request) (os : Py.OS) :
  In (status_code (response (App.handle req os App.initial)))
     [200; 308; 404; 405; 500]%Z /\
  (status_code (response (App.handle req os App.initial)) = 500%Z <->
   path req = "/" /\ (method req = GET \/ method req = HEAD) /\
   exists e : Py.exn, Py.sys_gethostname os = inl e).
Proof.
  destruct req as [m p]. cbn [method path]. by_route p.
  - destruct m; cbn; rewrite ?hello_unfold; cbn [Py.result];
      try (split; [tauto|];
           split; [discriminate | intros (_ & [H|H] & _); discriminate]).
    + destruct (Py.sys_gethostname os) as [e|h] eqn:E; cbn.
      * split; [tauto|]. split; [intros _; repeat split; eauto | reflexivity].
      * split; [tauto|]. split; [discriminate | intros (_ & _ & e & He); discriminate].
    + destruct (Py.sys_gethostname os) as [e|h] eqn:E; cbn.
      * split; [tauto|]. split; [intros _; repeat split; eauto | reflexivity].
      * split; [tauto|]. split; [discriminate | intros (_ & _ & e & He); discriminate].
  - destruct m; cbn; (split; [tauto|]);
      (split; [discriminate | intros (H & _); discriminate]).
  - destruct m; cbn; (split; [tauto|]);
      (split; [discriminate | intros (H & _); discriminate]).
  - destruct m; cbn; (split; [tauto|]);
      (split; [discriminate | intros (H & _); congruence]).
Qed.

(** X6.  A HEAD request is answered like the GET request for the same
    path, with the body left out: same status, same headers, same log (the
    view runs, and for [/] the hostname is asked for), empty body. *)
Theorem head_is_get_without_body (p : string) (os : Py.OS) :
  status_code (response (App.handle {| method := HEAD; path := p |} os App.initial))
  = status_code (response (App.handle {| method := GET; path := p |} os App.initial)) /\
  headers (response (App.handle {| method := HEAD; path := p |} os App.initial))
  = headers (response (App.handle {| method := GET; path := p |} os App.initial)) /\
  log (App.handle {| method := HEAD; path := p |} os App.initial)
  = log (App.handle {| method := GET; path := p |} os App.initial) /\
  data (response (App.handle {| method := HEAD; path := p |} os App.initial))
  = EmptyString.
Proof.
  by_route p; repeat split.
Qed.

(** X7.  What [jsonify] writes can be read back: for every dictionary whose
    keys and values are strings of characters below code point 256 (the
    strings of this development), whichever of those characters they hold,
    the body denotes an object whose members are the members of the
    dictionary, each once, in ascending order of their keys. *)
Theorem jsonify_round_trip (d : pydict) :
  exists obj : pydict,
    get_json (jsonify d) = Some obj /\
    Permutation d obj /\
    Sorted key_le obj.
Proof.
  exists (Json.sorted d). split; [|split].
  - unfold get_json, jsonify. cbn [data]. now apply JsonFacts.loads_dumps.
  - induction d as [|kv d IH]; cbn [Json.sorted]; [constructor|].
    eapply perm_trans; [apply perm_skip, IH | apply insert_item_perm].
  - induction d as [|kv d IH]; cbn [Json.sorted]; [constructor|].
    now apply insert_item_sorted.
Qed.

(** X8.  Whatever characters the hostname holds, the body of the greeting
    is made of the characters from space to tilde, followed by one newline:
    no control character and no character outside ASCII reaches the wire
    unescaped. *)
Theorem greeting_body_is_ascii (os : Py.OS) (g : App.Globals) (h : string) :
  Py.sys_gethostname os = inr h ->
  exists (r : Response) (t : string),
    Py.result (App.hello os g) = inr r /\
    data r = (t ++ nl)%string /\
    all_printable t = true.
Proof.
  intro Hh. rewrite hello_unfold. cbn [Py.result]. rewrite Hh.
  eexists. eexists. split; [reflexivity|]. split; [reflexivity|].
  unfold Json.dumps.
  change (all_printable (String "{" ?s)) with (all_printable s).
  apply encode_items_printable.
Qed.

Lemma greeting_body_is_ascii_witness :
  exists (r : Response) (t : string),
    Py.result (App.hello
                 {| Py.sys_gethostname :=
                      inr (String (ascii_of_nat 200) (String (ascii_of_nat 10) "x")) |}
                 App.initial) = inr r /\
    data r = (t ++ nl)%string /\
    all_printable t = true.
Proof.
  apply (greeting_body_is_ascii
           {| Py.sys_gethostname :=
                inr (String (ascii_of_nat 200) (String (ascii_of_nat 10) "x")) |}
           App.initial
           (String (ascii_of_nat 200) (String (ascii_of_nat 10) "x"))).
  reflexivity.
Defined.

(** X9.  The greeting tells hosts apart: if two runs of the view, during
    which the lookup answered [h1] and [h2], return the same response, then
    [h1] and [h2] are the same string. *)
Theorem greeting_identifies_host (os1 os2 : Py.OS) (g1 g2 : App.Globals)
    (h1 h2 : string) :
  Py.sys_gethostname os1 = inr h1 -> Py.sys_gethostname os2 = inr h2 ->
  Py.result (App.hello os1 g1) = Py.result (App.hello os2 g2) ->
  h1 = h2.
Proof.
  intros H1 H2. rewrite !hello_unfold. cbn [Py.result]. rewrite H1, H2.
  intro E.
  assert (J : get_json (jsonify [("message", "Hello from Docker Swarm!");
                                 ("hostname", h1); ("version", "1.0.0")])
              = get_json (jsonify [("message", "Hello from Docker Swarm!");
                                   ("hostname", h2); ("version", "1.0.0")]))
    by congruence.
  rewrite !hello_body_json in J. now injection J.
Qed.

Lemma greeting_identifies_host_witness : "node-7" = "node-7".
Proof.
  apply (greeting_identifies_host
           {| Py.sys_gethostname := inr "node-7" |}
           {| Py.sys_gethostname := inr "node-7" |}
           App.initial (App.module_body "app") "node-7" "node-7");
    reflexivity.
Defined.

(** X10.  An OPTIONS request for [/] or [/health] is answered by the
    framework itself: status 200, empty body, no view called and the
    hostname not asked for, whatever the operating system would say. *)
Theorem options_answered_without_view (req : Request) (os : Py.OS) :
  path req = "/" \/ path req = "/health" -> method req = OPTIONS ->
  status_code (response (App.handle req os App.initial)) = 200%Z /\
  data (response (App.handle req os App.initial)) = EmptyString /\
  log (App.handle req os App.initial) = [].
Proof.
  destruct req as [m p]. cbn [method path]. intros Hp ->.
  unfold App.handle, wsgi_app; cbn [method path].
  destruct Hp as [-> | ->]; [rewrite match_root | rewrite match_health];
    repeat split.
Qed.

Lemma options_answered_without_view_witness :
  status_code (response (App.handle {| method := OPTIONS; path := "/" |}
                 {| Py.sys_gethostname := inl (Py.OSError 14) |} App.initial))
  = 200%Z /\
  data (response (App.handle {| method := OPTIONS; path := "/" |}
          {| Py.sys_gethostname := inl (Py.OSError 14) |} App.initial))
  = EmptyString /\
  log (App.handle {| method := OPTIONS; path := "/" |}
         {| Py.sys_gethostname := inl (Py.OSError 14) |} App.initial) = [].
Proof.
  apply (options_answered_without_view {| method := OPTIONS; path := "/" |}
           {| Py.sys_gethostname := inl (Py.OSError 14) |});
    [left; reflexivity | reflexivity].
Defined.
